(** * Tenant-scoped question routes (api/questions/routes.py)

    A shallow embedding of the six request handlers of the question router
    and of the part of the document store they drive, followed by the
    properties of tenant isolation, pagination, sorting, answer origin and
    error behaviour. *)

From stdpp Require Import base gmap strings list.
From Stdlib Require Import ZArith Lia Ascii.

Local Open Scope string_scope.
Local Open Scope Z_scope.
Local Open Scope list_scope.

(** ** Values and documents *)

(** Document identities (ObjectId) and tenant identities are opaque. *)
Definition oid := nat.
Definition tenant := nat.

(** The values a request payload (a Python dict decoded from JSON) carries
    under the keys the handlers read: text, or a list of text. *)
Inductive pyval :=
| PyStr (s : string)
| PyList (l : list string).

#[global] Instance pyval_eq_dec : EqDecision pyval.
Proof. solve_decision. Defined.

(** Modelled from the spec: the document classes of [db.models] (question,
    answer, comment, user) are not among the sources. Each record has the
    fields the handlers pass to its constructor, which section 3 of the
    specification lists; [id] is unset until the store inserts the
    document, and a field holds the value it was given. *)
Module Question.
Record t := mk {
  id : option oid;
  title : pyval;
  description : pyval;
  tags : pyval;
  company_id : tenant;
  user_id : string;
  upvotes : Z;
}.
End Question.

Module Answer.
Record t := mk {
  id : option oid;
  question_id : oid;
  answer : pyval;
  user_id : option string;
  upvotes : Z;
  is_ai : bool;
}.
End Answer.

Module Comment.
Record t := mk {
  id : option oid;
  answer_id : oid;
  comment : pyval;
  user_id : string;
}.
End Comment.

(** Modelled from the spec: the tenant configuration read through
    [user.company], of which the handlers use the AI-answering flag only. *)
Module Company.
Record t := mk { ai_answer_enabled : bool }.
End Company.

Module User.
Record t := mk { id : string; company : Company.t }.
End User.

(** The verified caller that [verify_in_company] hands to every handler:
    read as [current_user["sub"]] and [current_user.company_id]. *)
Record CurrentUser := mkCurrentUser {
  sub : string;
  company_id : tenant;
}.

#[global] Instance Question_eq_dec : EqDecision Question.t.
Proof. solve_decision. Defined.
#[global] Instance Answer_eq_dec : EqDecision Answer.t.
Proof. solve_decision. Defined.
#[global] Instance Comment_eq_dec : EqDecision Comment.t.
Proof. solve_decision. Defined.

(** ** The store and the handler monad *)

(** Collections keep their documents in insertion order. *)
Record Store := mkStore {
  questions : list Question.t;
  answers : list Answer.t;
  comments : list Comment.t;
  users : list User.t;
  next_id : oid;
}.

Definition empty_store : Store := mkStore [] [] [] [] 0%nat.

(** What a handler can raise. [HTTPException] is the only exception the
    routes raise themselves; the others escape from a subscript, an
    attribute access, a call with an argument of the wrong type, the store
    driver or the answer generator. *)
Inductive exn :=
| HTTPException (status_code : Z) (detail : string)
| KeyError (key : string)
| AttributeError (name : string)
| TypeError (errmsg : string)
| OperationFailure (errmsg : string)
| GenerationFailure (errmsg : string).

Inductive result (A : Type) :=
| Ok (a : A)
| Raise (e : exn).
Arguments Ok {A} a.
Arguments Raise {A} e.

(** A handler runs against the store; an exception aborts it but keeps the
    inserts already made (there is no transaction). *)
Definition M (A : Type) : Type := Store → result A * Store.

#[global] Instance M_ret : MRet M := λ A a st, (Ok a, st).
#[global] Instance M_bind : MBind M := λ A B f m st,
  match m st with
  | (Ok a, st') => f a st'
  | (Raise e, st') => (Raise e, st')
  end.

Definition raise {A} (e : exn) : M A := λ st, (Raise e, st).
Definition get_store : M Store := λ st, (Ok st, st).
Definition put_store (st : Store) : M unit := λ _, (Ok (), st).
Definition lift_result {A} (r : result A) : M A := λ st, (r, st).

Fixpoint for_each {A B} (f : A → M B) (l : list A) : M (list B) :=
  match l with
  | [] => mret []
  | x :: l' => y ← f x; ys ← for_each f l'; mret (y :: ys)
  end.

(** The status line and the body of the response the framework sends for an
    exception: an [HTTPException] gives its own status and
    [{"detail": detail}], anything else is an internal server error. *)
Definition status_of (e : exn) : Z :=
  match e with
  | HTTPException s _ => s
  | _ => 500
  end.

Definition response_body (e : exn) : string :=
  match e with
  | HTTPException _ d => d
  | _ => "Internal Server Error"
  end.

(** A validation error is what the framework answers with status 422. *)
Definition is_ValidationError (e : exn) : bool := status_of e =? 422.

(** Whether an outcome is a failure with a validation error. *)
Definition fails_with_ValidationError {A} (r : result A) : bool :=
  match r with
  | Raise e => is_ValidationError e
  | Ok _ => false
  end.

(** ** Python dict access *)

(** [d[k]]: raises [KeyError] when the key is missing. *)
Definition dict_getitem (d : gmap string pyval) (k : string) : M pyval :=
  match d !! k with
  | Some v => mret v
  | None => raise (KeyError k)
  end.

(** [d.get(k, default)]. *)
Definition dict_get (d : gmap string pyval) (k : string) (default : pyval) : pyval :=
  match d !! k with
  | Some v => v
  | None => default
  end.

(** ** Store operations *)

Definition fresh_id : M oid :=
  st ← get_store;
  put_store (mkStore (questions st) (answers st) (comments st) (users st) (S (next_id st)));;
  mret (next_id st).

Definition Question_insert (q : Question.t) : M oid :=
  i ← fresh_id;
  st ← get_store;
  let q' := Question.mk (Some i) (Question.title q) (Question.description q)
              (Question.tags q) (Question.company_id q) (Question.user_id q)
              (Question.upvotes q) in
  put_store (mkStore (questions st ++ [q']) (answers st) (comments st) (users st) (next_id st));;
  mret i.

Definition Answer_insert (a : Answer.t) : M oid :=
  i ← fresh_id;
  st ← get_store;
  let a' := Answer.mk (Some i) (Answer.question_id a) (Answer.answer a)
              (Answer.user_id a) (Answer.upvotes a) (Answer.is_ai a) in
  put_store (mkStore (questions st) (answers st ++ [a']) (comments st) (users st) (next_id st));;
  mret i.

Definition Comment_insert (c : Comment.t) : M oid :=
  i ← fresh_id;
  st ← get_store;
  let c' := Comment.mk (Some i) (Comment.answer_id c) (Comment.comment c)
              (Comment.user_id c) in
  put_store (mkStore (questions st) (answers st) (comments st ++ [c']) (users st) (next_id st));;
  mret i.

Definition find_by_id {A} (ident : A → option oid) (i : oid) (l : list A) : option A :=
  snd <$> list_find (λ x, ident x = Some i) l.

Definition Question_get (i : oid) : M (option Question.t) :=
  st ← get_store; mret (find_by_id Question.id i (questions st)).

Definition Answer_get (i : oid) : M (option Answer.t) :=
  st ← get_store; mret (find_by_id Answer.id i (answers st)).

(** [Answer.find(Answer.question_id == question_id).to_list()] *)
Definition Answer_find_by_question (qid : oid) : M (list Answer.t) :=
  st ← get_store; mret (filter (λ a, Answer.question_id a = qid) (answers st)).

(** [Comment.find(Comment.answer_id == answer.id).to_list()] *)
Definition Comment_find_by_answer (aid : option oid) : M (list Comment.t) :=
  st ← get_store; mret (filter (λ c, Some (Comment.answer_id c) = aid) (comments st)).

(** [User.find_one(User.id == sub)] builds a query object; nothing is
    looked up until the query is awaited. *)
Record FindOne := mkFindOne {
  find_one_user_id : string;
}.

Definition User_find_one (s : string) : FindOne := mkFindOne s.

(** Awaiting the query gives the first stored user with that id, if any. *)
Definition FindOne_await (q : FindOne) : M (option User.t) :=
  st ← get_store;
  mret (snd <$> list_find (λ u, User.id u = find_one_user_id q) (users st)).

(** Reading an attribute off the query object itself: a query has none of
    the document's fields, so the read raises. *)
Definition FindOne_getattr (q : FindOne) (name : string) : M Company.t :=
  raise (AttributeError name).

(** ** Queries over questions *)

(** The filter document of [get_questions]: a dict with at most the keys
    ["tags"] (holding [{"$in": tags}]) and ["company_id"]. *)
Record Query := mkQuery {
  query_tags_in : option (list string);
  query_company_id : option tenant;
}.

Definition empty_query : Query := mkQuery None None.

(** [$in] on a field: an array field matches when one of its elements is
    listed, a scalar field when it is listed itself. *)
Definition tags_in (listed : list string) (v : pyval) : bool :=
  match v with
  | PyList l => bool_decide (Exists (λ x, x ∈ listed) l)
  | PyStr s => bool_decide (s ∈ listed)
  end.

Definition matches (q : Query) (d : Question.t) : bool :=
  match query_tags_in q with
  | Some listed => tags_in listed (Question.tags d)
  | None => true
  end
  &&
  match query_company_id q with
  | Some c => bool_decide (Question.company_id d = c)
  | None => true
  end.

(** The query builder returned by [Question.find]: [sort] adds sort
    expressions, pairs of a key and a direction, [skip] and [limit] record
    their argument, and [to_list] runs the query. *)
Record FindMany := mkFindMany {
  find_query : Query;
  sort_expressions : list (string * Z);
  skip_number : Z;
  limit_number : Z;
}.

Definition Question_find (q : Query) : FindMany := mkFindMany q [] 0 0.

(** What a caller may hand to [sort]. *)
Inductive sort_arg :=
| SortNone
| SortStr (s : string)
| SortTuple (key : string) (direction : Z)
| SortList (l : list (string * Z))
| SortInt (n : Z).

(** [sort] takes a key, written "key", "+key" or "-key", a pair of key and
    direction, or a list of such pairs; it ignores [None] and refuses any
    other argument, an integer among them, with [TypeError]. *)
Definition sort (arg : sort_arg) (c : FindMany) : result FindMany :=
  let add es :=
    Ok (mkFindMany (find_query c) (sort_expressions c ++ es)
          (skip_number c) (limit_number c)) in
  match arg with
  | SortNone => Ok c
  | SortStr (String "+"%char key) => add [(key, 1)]
  | SortStr (String "-"%char key) => add [(key, -1)]
  | SortStr key => add [(key, 1)]
  | SortTuple key direction => add [(key, direction)]
  | SortList l => add l
  | SortInt _ => Raise (TypeError "Wrong argument type")
  end.

Definition skip (n : Z) (c : FindMany) : FindMany :=
  mkFindMany (find_query c) (sort_expressions c) n (limit_number c).

Definition limit (n : Z) (c : FindMany) : FindMany :=
  mkFindMany (find_query c) (sort_expressions c) (skip_number c) n.

(** The store's query execution is an external collaborator. The ordering
    it applies for a list of sort expressions is taken as a parameter: a
    total function that rearranges the matching documents (section 4.1 of
    the specification), and nothing more is assumed of it. *)
Class ContentStore := {
  order_by : list (string * Z) → list Question.t → list Question.t;
  order_by_perm : ∀ d l, order_by d l ≡ₚ l;
}.

(** The external answer generator ([utils.ai.generate_ai_answer]): an
    opaque function of title and description which may fail. *)
Class AiGenerator := {
  generate_ai_answer : pyval → pyval → result string;
}.

Section Routes.
Context {store : ContentStore} {generator : AiGenerator}.

(** The documents a cursor yields: the matching ones, in insertion order
    or, with sort expressions, in the store's order for them, without the
    first [skip_number], cut to [limit_number]. The driver's conventions out
    of range: a negative skip is refused, limit 0 means no limit, and a
    negative limit [-n] gives at most [n] documents. *)
Definition to_list (c : FindMany) : M (list Question.t) :=
  st ← get_store;
  let docs := filter (λ d, matches (find_query c) d = true) (questions st) in
  let docs := match sort_expressions c with
              | [] => docs
              | es => order_by es docs
              end in
  if skip_number c <? 0 then
    raise (OperationFailure "Skip value must be non-negative")
  else
    let docs := drop (Z.to_nat (skip_number c)) docs in
    mret (if limit_number c =? 0 then docs
          else take (Z.to_nat (Z.abs (limit_number c))) docs).

(** ** The handlers *)

(** POST /questions *)
Definition create_question (question_data : gmap string pyval)
    (current_user : CurrentUser) : M (string * oid) :=
  title ← dict_getitem question_data "title";
  description ← dict_getitem question_data "description";
  let question :=
    Question.mk None title description
      (dict_get question_data "tags" (PyList []))
      (company_id current_user) (sub current_user) 0 in
  question_id ← Question_insert question;
  mret ("Question created successfully", question_id).

(** GET /questions *)
Definition get_questions (page page_size : Z) (tags : option (list string))
    (sort_by : string) (current_user : CurrentUser) : M (list Question.t) :=
  let query := empty_query in
  let query :=
    match tags with
    | Some (t :: ts) => mkQuery (Some (t :: ts)) (query_company_id query)
    | _ => query
    end in
  let query := mkQuery (query_tags_in query) (Some (company_id current_user)) in
  (* the builder methods run left to right: [sort] is called, with the
     integer, before the arguments of [skip] and [limit] are looked at *)
  sorted ← lift_result
             (sort (SortInt (if String.eqb sort_by "upvotes" then -1 else -1))
                (Question_find query));
  let questions := limit page_size (skip ((page - 1) * page_size) sorted) in
  to_list questions.

(** GET /questions/{question_id} *)
Definition get_question_by_id (question_id : oid) (current_user : CurrentUser)
    : M (Question.t * list (Answer.t * list Comment.t)) :=
  question ← Question_get question_id;
  match question with
  | None => raise (HTTPException 404 "Question not found")
  | Some question =>
      if bool_decide (Question.company_id question ≠ company_id current_user) then
        raise (HTTPException 403 "Access denied")
      else
        answers ← Answer_find_by_question question_id;
        answers ← for_each (λ answer,
                     comments ← Comment_find_by_answer (Answer.id answer);
                     mret (answer, comments)) answers;
        mret (question, answers)
  end.

(** POST /questions/{question_id}/answers *)
Definition answer_question (question_id : oid) (answer_data : gmap string pyval)
    (current_user : CurrentUser) : M string :=
  question ← Question_get question_id;
  match question with
  | None => raise (HTTPException 404 "Question not found")
  | Some _ =>
      body ← dict_getitem answer_data "answer";
      let answer := Answer.mk None question_id body (Some (sub current_user)) 0 false in
      Answer_insert answer;;
      mret "Answer added successfully"
  end.

(** POST /answers/{answer_id}/comments *)
Definition comment_on_answer (answer_id : oid) (comment_data : gmap string pyval)
    (current_user : CurrentUser) : M string :=
  answer ← Answer_get answer_id;
  match answer with
  | None => raise (HTTPException 404 "Answer not found")
  | Some _ =>
      body ← dict_getitem comment_data "comment";
      let comment := Comment.mk None answer_id body (sub current_user) in
      Comment_insert comment;;
      mret "Comment added successfully"
  end.

(** POST /questions/{question_id}/generate-answer *)
Definition generate_ai_answer_route (question_id : oid) (current_user : CurrentUser)
    : M (string * string) :=
  question ← Question_get question_id;
  match question with
  | None => raise (HTTPException 404 "Question not found")
  | Some question =>
      (* [await User.find_one(...).company]: the attribute is read off the
         query object, and only what that read gives would be awaited *)
      company ← FindOne_getattr (User_find_one (sub current_user)) "company";
      if negb (Company.ai_answer_enabled company) then
        raise (HTTPException 403 "AI-generated answers are disabled")
      else
        ai_answer ← lift_result (generate_ai_answer (Question.title question)
                                   (Question.description question));
        let answer := Answer.mk None question_id (PyStr ai_answer) None 0 true in
        Answer_insert answer;;
        mret ("AI-generated answer added successfully", ai_answer)
  end.

(** ** Derived notions used to state the properties *)

(** The filter [get_questions] builds for a tags argument and a caller. *)
Definition list_query (tags : option (list string)) (current_user : CurrentUser)
    : Query :=
  mkQuery (match tags with
           | Some (t :: ts) => Some (t :: ts)
           | _ => None
           end)
          (Some (company_id current_user)).

(** The questions of the store that filter selects, in insertion order. *)
Definition matching_questions (tags : option (list string))
    (current_user : CurrentUser) (st : Store) : list Question.t :=
  filter (λ d, matches (list_query tags current_user) d = true) (questions st).

(** A request to the router, and the store after serving it. *)
Inductive request :=
| CreateQuestion (question_data : gmap string pyval) (current_user : CurrentUser)
| GetQuestions (page page_size : Z) (tags : option (list string))
    (sort_by : string) (current_user : CurrentUser)
| GetQuestionById (question_id : oid) (current_user : CurrentUser)
| AnswerQuestion (question_id : oid) (answer_data : gmap string pyval)
    (current_user : CurrentUser)
| CommentOnAnswer (answer_id : oid) (comment_data : gmap string pyval)
    (current_user : CurrentUser)
| GenerateAiAnswer (question_id : oid) (current_user : CurrentUser).

Definition serve (st : Store) (r : request) : Store :=
  match r with
  | CreateQuestion d u => snd (create_question d u st)
  | GetQuestions p s t b u => snd (get_questions p s t b u st)
  | GetQuestionById q u => snd (get_question_by_id q u st)
  | AnswerQuestion q d u => snd (answer_question q d u st)
  | CommentOnAnswer a d u => snd (comment_on_answer a d u st)
  | GenerateAiAnswer q u => snd (generate_ai_answer_route q u st)
  end.

Definition serve_all (st : Store) (rs : list request) : Store :=
  foldl serve st rs.

End Routes.

(** An answer's author is recorded exactly when the answer is human. *)
Definition origin_consistent (a : Answer.t) : Prop :=
  (is_Some (Answer.user_id a) ↔ Answer.is_ai a = false)
  ∧ (Answer.user_id a = None ↔ Answer.is_ai a = true).

(** ** A concrete store and generator

    Used to run the handlers on explicit inputs: a descending first sort
    expression lists the newest document first. *)

#[local] Program Instance newest_first_store : ContentStore := {
  order_by es l :=
    match es with
    | (_, d) :: _ => if d <? 0 then reverse l else l
    | [] => l
    end;
}.
Next Obligation.
  intros [|[k d] es] l; simpl; [reflexivity |].
  destruct (d <? 0); [apply reverse_Permutation | reflexivity].
Defined.

Definition canned_generator : AiGenerator :=
  {| generate_ai_answer _ _ := Ok "generated" |}.

Definition failing_generator : AiGenerator :=
  {| generate_ai_answer _ _ := Raise (GenerationFailure "timeout") |}.

Definition alice : CurrentUser := mkCurrentUser "alice" 1%nat.
Definition bob : CurrentUser := mkCurrentUser "bob" 2%nat.

Definition question_of_alice : Question.t :=
  Question.mk (Some 0%nat) (PyStr "t") (PyStr "d") (PyList ["x"]) 1%nat "alice" 0.
Definition question_of_bob : Question.t :=
  Question.mk (Some 1%nat) (PyStr "u") (PyStr "e") (PyList ["x"; "y"]) 2%nat "bob" 3.
Definition second_of_alice : Question.t :=
  Question.mk (Some 2%nat) (PyStr "v") (PyStr "f") (PyList []) 1%nat "alice" 5.

(** Two tenants: alice's company has AI answers enabled, bob's has not. *)
Definition two_tenant_store : Store :=
  mkStore [question_of_alice; question_of_bob; second_of_alice] [] []
    [User.mk "alice" (Company.mk true); User.mk "bob" (Company.mk false)] 3%nat.

(** The same store once alice has asked a third question. *)
Definition third_of_alice : Question.t :=
  Question.mk (Some 3%nat) (PyStr "t") (PyStr "d") (PyList []) 1%nat "alice" 0.

Definition asked_store : Store :=
  mkStore (questions two_tenant_store ++ [third_of_alice]) [] []
    (users two_tenant_store) 4%nat.

(** The same store once alice has answered her first question. *)
Definition answer_by_alice : Answer.t :=
  Answer.mk (Some 3%nat) 0%nat (PyStr "a") (Some "alice") 0 false.

Definition answered_store : Store :=
  mkStore (questions two_tenant_store) [answer_by_alice] []
    (users two_tenant_store) 4%nat.

(** ** Consistency of the store *)

(** Identities handed out so far lie below [next_id], and references
    resolve: every answer names a stored question, every comment a stored
    answer. *)
Definition store_ok (st : Store) : Prop :=
  (∀ q, q ∈ questions st → ∃ i, Question.id q = Some i ∧ (i < next_id st)%nat)
  ∧ (∀ a, a ∈ answers st →
       (∃ i, Answer.id a = Some i ∧ (i < next_id st)%nat)
       ∧ is_Some (find_by_id Question.id (Answer.question_id a) (questions st)))
  ∧ (∀ c, c ∈ comments st →
       is_Some (find_by_id Answer.id (Comment.answer_id c) (answers st))).

(** How one request can change the store: not at all, or by one document
    appended under the next identity, an answer only to a stored question
    and a comment only to a stored answer. *)
Inductive grows (st : Store) : Store → Prop :=
| grows_none : grows st st
| grows_question q :
    Question.id q = Some (next_id st) →
    grows st (mkStore (questions st ++ [q]) (answers st) (comments st)
                (users st) (S (next_id st)))
| grows_answer a :
    Answer.id a = Some (next_id st) →
    is_Some (find_by_id Question.id (Answer.question_id a) (questions st)) →
    grows st (mkStore (questions st) (answers st ++ [a]) (comments st)
                (users st) (S (next_id st)))
| grows_comment c :
    Comment.id c = Some (next_id st) →
    is_Some (find_by_id Answer.id (Comment.answer_id c) (answers st)) →
    grows st (mkStore (questions st) (answers st) (comments st ++ [c])
                (users st) (S (next_id st))).

(** The number of documents a store holds. *)
Definition document_count (st : Store) : nat :=
  (length (questions st) + length (answers st) + length (comments st))%nat.

(** The comments [get_question_by_id] attaches to an answer. *)
Definition comments_on (st : Store) (a : Answer.t) : list Comment.t :=
  filter (λ c, Some (Comment.answer_id c) = Answer.id a) (comments st).

(** The answers part of the view [get_question_by_id] assembles for a
    question id: the stored answers to it, each with the comments on it. *)
Definition answers_view (st : Store) (question_id : oid)
    : list (Answer.t * list Comment.t) :=
  (λ a, (a, comments_on st a))
    <$> filter (λ a, Answer.question_id a = question_id) (answers st).

(** * Properties *)

(** ** Running the monad *)

Ltac run :=
  unfold fresh_id, Question_insert, Answer_insert, Comment_insert,
    Question_get, Answer_get, Answer_find_by_question, Comment_find_by_answer,
    FindOne_await, FindOne_getattr, dict_getitem, lift_result in *;
  unfold mbind, M_bind, mret, M_ret, raise, get_store, put_store in *;
  simpl in *.

Section Facts.
Context {store : ContentStore} {generator : AiGenerator}.

Lemma order_by_elem d (l : list Question.t) x : x ∈ order_by d l ↔ x ∈ l.
Proof. by rewrite order_by_perm. Qed.

Lemma matching_questions_elem tags u st q :
  q ∈ matching_questions tags u st →
  q ∈ questions st ∧ Question.company_id q = company_id u.
Proof.
  unfold matching_questions. rewrite list_elem_of_filter.
  intros [Hm Hin]. split; [done |].
  unfold matches, list_query in Hm. simpl in Hm.
  apply andb_prop in Hm as [_ Hc]. by apply bool_decide_eq_true in Hc.
Qed.

(** [sort] never touches the filter of the query it is given. *)
Lemma sort_keeps_query arg c c' : sort arg c = Ok c' → find_query c' = find_query c.
Proof.
  destruct arg as [|[|a k]|k d|l|n]; simpl; try (by intros [= <-]).
  destruct (Ascii.eqb_spec a "+"%char) as [->|?]; [by intros [= <-] |].
  destruct (Ascii.eqb_spec a "-"%char) as [->|?]; [by intros [= <-] |].
  destruct a as [[] [] [] [] [] [] [] []]; try (by intros [= <-]).
Qed.

(** Whatever a cursor yields was stored and passes the cursor's filter. *)
Lemma to_list_elem c st l st' q :
  to_list c st = (Ok l, st') → q ∈ l →
  q ∈ questions st ∧ matches (find_query c) q = true.
Proof.
  unfold to_list. run.
  destruct (skip_number c <? 0); [discriminate |].
  intros [= <- _] Hq.
  assert (q ∈ filter (λ d, matches (find_query c) d = true) (questions st)) as Hf.
  { assert (q ∈ match sort_expressions c with
                | [] => filter (λ d, matches (find_query c) d = true) (questions st)
                | es => order_by es
                          (filter (λ d, matches (find_query c) d = true) (questions st))
                end) as Ho.
    { destruct (limit_number c =? 0).
      - by eapply subseteq_drop.
      - eapply subseteq_drop, subseteq_take, Hq. }
    destruct (sort_expressions c); [done | by apply order_by_elem in Ho]. }
  apply list_elem_of_filter in Hf as [Hm Hin]. done.
Qed.

(** Whatever [get_questions] returns passes the filter it built; this does
    not depend on what [sort] makes of its argument. *)
Lemma get_questions_sound page page_size tags sort_by u st l st' q :
  get_questions page page_size tags sort_by u st = (Ok l, st') →
  q ∈ l → q ∈ matching_questions tags u st.
Proof.
  unfold get_questions. unfold mbind, M_bind, lift_result.
  destruct (sort _ _) as [sorted|e] eqn:Hsort; [|discriminate].
  apply sort_keeps_query in Hsort. simpl in Hsort.
  intros Hget Hq. eapply to_list_elem in Hget as [Hin Hm]; [|done].
  simpl in Hm. rewrite Hsort in Hm.
  unfold matching_questions, list_query. apply list_elem_of_filter.
  split; [|done]. by destruct tags as [[|t ts]|].
Qed.

(** The outcome of [get_questions]: [sort] refuses the integer it is
    given, so the call raises before anything is read from the store. *)
Lemma get_questions_eq page page_size tags sort_by u st :
  get_questions page page_size tags sort_by u st =
  (Raise (TypeError "Wrong argument type"), st).
Proof. reflexivity. Qed.

Lemma for_each_comments (l : list Answer.t) st :
  for_each (λ answer,
              comments ← Comment_find_by_answer (Answer.id answer);
              mret (answer, comments)) l st =
  (Ok ((λ a, (a, filter (λ c, Some (Comment.answer_id c) = Answer.id a)
                   (comments st))) <$> l), st).
Proof.
  induction l as [|a l IH]; [reflexivity |].
  simpl. run. rewrite IH. reflexivity.
Qed.

(** What [get_question_by_id] computes, in one equation. *)
Lemma get_question_by_id_eq question_id u st :
  get_question_by_id question_id u st =
  (match find_by_id Question.id question_id (questions st) with
   | None => Raise (HTTPException 404 "Question not found")
   | Some q =>
       if bool_decide (Question.company_id q ≠ company_id u) then
         Raise (HTTPException 403 "Access denied")
       else
         Ok (q, (λ a, (a, filter (λ c, Some (Comment.answer_id c) = Answer.id a)
                            (comments st)))
                  <$> filter (λ a, Answer.question_id a = question_id) (answers st))
   end, st).
Proof.
  unfold get_question_by_id. run.
  destruct (find_by_id Question.id question_id (questions st)) as [q|]; [|done].
  destruct (bool_decide (Question.company_id q ≠ company_id u)); [done |].
  pose proof (for_each_comments
                (filter (λ a, Answer.question_id a = question_id) (answers st)) st) as E.
  run. rewrite E. reflexivity.
Qed.

(** What [answer_question] does once the question id resolves: the tenant
    of the question plays no part. *)
Lemma answer_question_found question_id d u st q body :
  find_by_id Question.id question_id (questions st) = Some q →
  d !! "answer" = Some body →
  answer_question question_id d u st =
  (Ok "Answer added successfully",
   mkStore (questions st)
     (answers st ++ [Answer.mk (Some (next_id st)) question_id body (Some (sub u)) 0 false])
     (comments st) (users st) (S (next_id st))).
Proof.
  intros Hq Hd. unfold answer_question. run. rewrite Hq, Hd. reflexivity.
Qed.

(** The outcomes of [generate_ai_answer_route]: once the question is found
    the read of [company] off the query object raises, so the flag is never
    looked at, the generator never called and nothing inserted. *)
Lemma generate_ai_answer_route_eq question_id u st :
  generate_ai_answer_route question_id u st =
  match find_by_id Question.id question_id (questions st) with
  | None => (Raise (HTTPException 404 "Question not found"), st)
  | Some q => (Raise (AttributeError "company"), st)
  end.
Proof.
  unfold generate_ai_answer_route. run.
  by destruct (find_by_id Question.id question_id (questions st)).
Qed.

End Facts.

(** ** Tenant isolation on the read paths *)

Section Isolation.
Context {store : ContentStore}.

(** C1: a question owned by one tenant is never in the list returned to a
    caller of another tenant, whatever page, page size, tags and sort key are
    asked for; [get_question_by_id] never returns it to such a caller, and
    asked for that very question it fails with "Access denied". *)
Theorem tenant_isolation_on_reads (st : Store) (q : Question.t) (u : CurrentUser) :
  q ∈ questions st →
  Question.company_id q ≠ company_id u →
  (∀ page page_size tags sort_by l st',
     get_questions page page_size tags sort_by u st = (Ok l, st') → q ∉ l)
  ∧ (∀ question_id r st',
       get_question_by_id question_id u st = (Ok r, st') → r.1 ≠ q)
  ∧ (∀ question_id,
       Question_get question_id st = (Ok (Some q), st) →
       get_question_by_id question_id u st =
       (Raise (HTTPException 403 "Access denied"), st)).
Proof.
  intros Hin Hne. repeat split.
  - intros page page_size tags sort_by l st' Hget Hq.
    eapply get_questions_sound, matching_questions_elem in Hget as [_ Hc]; done.
  - intros question_id r st'. rewrite get_question_by_id_eq.
    destruct (find_by_id Question.id question_id (questions st)) as [q'|]; [|discriminate].
    destruct (bool_decide_reflect (Question.company_id q' ≠ company_id u)) as [|Heq];
      [discriminate |].
    intros [= <- _]. simpl. intros ->. apply Heq, Hne.
  - intros question_id Hget. rewrite get_question_by_id_eq.
    run. injection Hget as ->.
    by rewrite bool_decide_eq_true_2.
Qed.

End Isolation.

Lemma tenant_isolation_on_reads_witness :
  (∀ page page_size tags sort_by l st',
     get_questions page page_size tags sort_by bob two_tenant_store = (Ok l, st') →
     question_of_alice ∉ l)
  ∧ (∀ question_id r st',
       get_question_by_id question_id bob two_tenant_store = (Ok r, st') →
       r.1 ≠ question_of_alice)
  ∧ (∀ question_id,
       Question_get question_id two_tenant_store =
       (Ok (Some question_of_alice), two_tenant_store) →
       get_question_by_id question_id bob two_tenant_store =
       (Raise (HTTPException 403 "Access denied"), two_tenant_store)).
Proof.
  apply (tenant_isolation_on_reads two_tenant_store question_of_alice bob).
  - simpl. apply list_elem_of_here.
  - simpl. lia.
Defined.


(** ** Sorting *)

Section Sorting.
Context {store : ContentStore}.


End Sorting.

(** ** Cross-tenant and missing questions *)

(** C5, as claimed, fails: bob asks for alice's question 0 and for the
    missing question 7; the two failures differ in status and in body. *)
Lemma cross_tenant_differs_from_missing :
  Question_get 0%nat two_tenant_store = (Ok (Some question_of_alice), two_tenant_store)
  ∧ Question.company_id question_of_alice ≠ company_id bob
  ∧ Question_get 7%nat two_tenant_store = (Ok None, two_tenant_store)
  ∧ ∃ e_other e_missing,
      get_question_by_id 0%nat bob two_tenant_store = (Raise e_other, two_tenant_store)
      ∧ get_question_by_id 7%nat bob two_tenant_store = (Raise e_missing, two_tenant_store)
      ∧ response_body e_other ≠ response_body e_missing
      ∧ status_of e_other ≠ status_of e_missing.
Proof.
  split; [reflexivity |]. split; [simpl; lia |]. split; [reflexivity |].
  exists (HTTPException 403 "Access denied"), (HTTPException 404 "Question not found").
  repeat split; try reflexivity; simpl; discriminate.
Qed.

(** C5, amended: the id of another tenant's question is answered with
    status 403 and body "Access denied", a missing id with status 404 and
    body "Question not found". The two responses differ, so the existence
    of the question shows; the cross-tenant response is one fixed response
    that carries nothing of the question. *)
Theorem cross_tenant_response (st : Store) (u : CurrentUser)
    (id_other id_missing : oid) (q : Question.t) :
  Question_get id_other st = (Ok (Some q), st) →
  Question.company_id q ≠ company_id u →
  Question_get id_missing st = (Ok None, st) →
  get_question_by_id id_other u st = (Raise (HTTPException 403 "Access denied"), st)
  ∧ get_question_by_id id_missing u st =
    (Raise (HTTPException 404 "Question not found"), st)
  ∧ response_body (HTTPException 403 "Access denied") ≠
    response_body (HTTPException 404 "Question not found").
Proof.
  intros Hq Hne Hm. rewrite !get_question_by_id_eq. run.
  injection Hq as ->. injection Hm as ->.
  rewrite bool_decide_eq_true_2 by done. repeat split. discriminate.
Qed.

Lemma cross_tenant_response_witness :
  get_question_by_id 0%nat bob two_tenant_store =
  (Raise (HTTPException 403 "Access denied"), two_tenant_store)
  ∧ get_question_by_id 7%nat bob two_tenant_store =
    (Raise (HTTPException 404 "Question not found"), two_tenant_store)
  ∧ response_body (HTTPException 403 "Access denied") ≠
    response_body (HTTPException 404 "Question not found").
Proof.
  apply (cross_tenant_response two_tenant_store bob 0%nat 7%nat question_of_alice).
  - reflexivity.
  - simpl. lia.
  - reflexivity.
Defined.

(** ** Creating questions *)

(** C7, as claimed, fails: a payload with an empty description is
    accepted and its question inserted. *)
Lemma empty_description_is_inserted :
  create_question {[ "title" := PyStr "t"; "description" := PyStr "" ]} alice empty_store =
  (Ok ("Question created successfully", 0%nat),
   mkStore [Question.mk (Some 0%nat) (PyStr "t") (PyStr "") (PyList []) 1%nat "alice" 0]
     [] [] [] 1%nat).
Proof. reflexivity. Qed.

(** C7, amended: [create_question] makes no emptiness check: with text
    under the keys "title" and "description", empty text included, and with
    the key "tags" absent or holding a list, it succeeds, inserts exactly one
    question holding them with the caller's tenant and identity and no
    upvotes, and returns the new id. *)
Theorem create_question_inserts (d : gmap string pyval) (u : CurrentUser)
    (st : Store) (t desc : string) (tgs : list string) :
  d !! "title" = Some (PyStr t) →
  d !! "description" = Some (PyStr desc) →
  dict_get d "tags" (PyList []) = PyList tgs →
  create_question d u st =
  (Ok ("Question created successfully", next_id st),
   mkStore
     (questions st ++
        [Question.mk (Some (next_id st)) (PyStr t) (PyStr desc) (PyList tgs)
           (company_id u) (sub u) 0])
     (answers st) (comments st) (users st) (S (next_id st))).
Proof.
  intros Ht Hd Htags. unfold create_question. run. rewrite Ht, Hd, Htags. reflexivity.
Qed.

Lemma create_question_inserts_witness :
  create_question {[ "title" := PyStr ""; "description" := PyStr "" ]} bob two_tenant_store =
  (Ok ("Question created successfully", 3%nat),
   mkStore
     (questions two_tenant_store ++
        [Question.mk (Some 3%nat) (PyStr "") (PyStr "") (PyList []) 2%nat "bob" 0])
     [] [] (users two_tenant_store) 4%nat).
Proof.
  rewrite (create_question_inserts _ bob two_tenant_store "" "" []) by reflexivity.
  reflexivity.
Defined.

(** C10: a payload without the key "title" or without the key
    "description" makes [create_question] raise [KeyError] for the first
    such key; nothing is inserted, and the failure is an internal error,
    not a validation error. *)
Theorem create_question_missing_key (d : gmap string pyval) (u : CurrentUser)
    (st : Store) :
  d !! "title" = None ∨ d !! "description" = None →
  ∃ k, create_question d u st = (Raise (KeyError k), st)
       ∧ (k = "title" ∨ k = "description")
       ∧ d !! k = None
       ∧ is_ValidationError (KeyError k) = false.
Proof.
  intros H. unfold create_question. run.
  destruct (d !! "title") as [t|] eqn:Ht.
  - destruct H as [|Hd]; [discriminate |]. exists "description".
    rewrite Hd. auto.
  - exists "title". auto.
Qed.

Lemma create_question_missing_key_witness :
  ∃ k, create_question {[ "title" := PyStr "t" ]} alice two_tenant_store =
       (Raise (KeyError k), two_tenant_store)
       ∧ (k = "title" ∨ k = "description")
       ∧ ({[ "title" := PyStr "t" ]} : gmap string pyval) !! k = None
       ∧ is_ValidationError (KeyError k) = false.
Proof.
  apply (create_question_missing_key {[ "title" := PyStr "t" ]} alice two_tenant_store).
  right. reflexivity.
Defined.

(** ** Pagination *)

(** C8: pagination is written down and never reached. Alice has two
    questions, and asks for her first page of two, under either sort key:
    the call raises [TypeError], because [sort] refuses the integer it is
    given before [skip] and [limit] are applied, and no page comes back. *)
Theorem first_page_is_never_returned :
  matching_questions None alice two_tenant_store = [question_of_alice; second_of_alice]
  ∧ get_questions 1 2 None "upvotes" alice two_tenant_store =
    (Raise (TypeError "Wrong argument type"), two_tenant_store)
  ∧ get_questions 1 2 None "created_at" alice two_tenant_store =
    (Raise (TypeError "Wrong argument type"), two_tenant_store).
Proof. repeat split. Qed.

(** C9, as claimed, fails: asked for page 0, and asked for a page of size
    0, the handler fails, but with [TypeError], an internal error (status
    500), not with a validation error. *)
Lemma page_zero_is_not_a_validation_error :
  get_questions 0 10 None "upvotes" alice two_tenant_store =
  (Raise (TypeError "Wrong argument type"), two_tenant_store)
  ∧ get_questions 1 0 None "upvotes" alice two_tenant_store =
    (Raise (TypeError "Wrong argument type"), two_tenant_store)
  ∧ is_ValidationError (TypeError "Wrong argument type") = false
  ∧ status_of (TypeError "Wrong argument type") = 500.
Proof. repeat split. Qed.

Section Pagination.
Context {store : ContentStore}.

(** C9, amended: [get_questions] called with [page < 1] or
    [page_size <= 0] does not fail with a validation error: the handler
    checks neither argument. It leaves the store as it was. *)
Theorem list_questions_does_not_validate (st : Store) (page page_size : Z)
    (tags : option (list string)) (sort_by : string) (u : CurrentUser) :
  page < 1 ∨ page_size ≤ 0 →
  fails_with_ValidationError (get_questions page page_size tags sort_by u st).1 = false
  ∧ (get_questions page page_size tags sort_by u st).2 = st.
Proof. intros _. by rewrite get_questions_eq. Qed.

End Pagination.

Lemma list_questions_does_not_validate_witness :
  fails_with_ValidationError (get_questions 0 (-3) None "upvotes" alice two_tenant_store).1
  = false
  ∧ (get_questions 0 (-3) None "upvotes" alice two_tenant_store).2 = two_tenant_store.
Proof.
  apply (list_questions_does_not_validate two_tenant_store 0 (-3) None "upvotes" alice).
  left. lia.
Defined.

(** ** Tenant ownership on the write paths *)

(** C2: the write paths do not check the tenant. Bob, of tenant 2, answers
    alice's question 0 of tenant 1: the call succeeds and the answer is
    stored. Alice asks for a generated answer to bob's question 1: no tenant
    is compared there either; the call fails, not with "Access denied" but
    with the [AttributeError] every such call ends in once the question is
    found, and stores nothing. *)
Theorem cross_tenant_answer_is_inserted :
  Question_get 0%nat two_tenant_store = (Ok (Some question_of_alice), two_tenant_store)
  ∧ Question.company_id question_of_alice ≠ company_id bob
  ∧ answer_question 0%nat {[ "answer" := PyStr "a" ]} bob two_tenant_store =
    (Ok "Answer added successfully",
     mkStore (questions two_tenant_store)
       [Answer.mk (Some 3%nat) 0%nat (PyStr "a") (Some "bob") 0 false]
       [] (users two_tenant_store) 4%nat)
  ∧ Question_get 1%nat two_tenant_store = (Ok (Some question_of_bob), two_tenant_store)
  ∧ Question.company_id question_of_bob ≠ company_id alice
  ∧ generate_ai_answer_route (generator := canned_generator) 1%nat alice two_tenant_store =
    (Raise (AttributeError "company"), two_tenant_store)
  ∧ status_of (AttributeError "company") ≠ 403.
Proof.
  repeat split; try reflexivity; simpl; lia.
Qed.

(** ** The AI answer gate *)

(** C4: the gate is written down and never reached. Bob's company has AI
    answers disabled. For his own question 1, which exists, the call fails
    with [AttributeError] (status 500), raised by the read of [company]
    before the flag is looked at, not with "AI-generated answers are
    disabled" (403); for the missing question 7 it fails with "Question not
    found" (404). The store is unchanged in both cases. *)
Theorem disabled_tenant_is_not_forbidden :
  FindOne_await (User_find_one (sub bob)) two_tenant_store =
  (Ok (Some (User.mk "bob" (Company.mk false))), two_tenant_store)
  ∧ Question_get 1%nat two_tenant_store = (Ok (Some question_of_bob), two_tenant_store)
  ∧ generate_ai_answer_route (generator := canned_generator) 1%nat bob two_tenant_store =
    (Raise (AttributeError "company"), two_tenant_store)
  ∧ status_of (AttributeError "company") = 500
  ∧ Question_get 7%nat two_tenant_store = (Ok None, two_tenant_store)
  ∧ generate_ai_answer_route (generator := canned_generator) 7%nat bob two_tenant_store =
    (Raise (HTTPException 404 "Question not found"), two_tenant_store).
Proof. repeat split. Qed.

(** ** Answer origin *)

Section Origin.
Context {store : ContentStore} {generator : AiGenerator}.

(** Serving a request adds at most answers whose author and origin agree. *)
Lemma serve_answers (st : Store) (r : request) :
  ∃ new : list Answer.t,
    answers (serve st r) = answers st ++ new ∧ Forall origin_consistent new.
Proof.
  assert (∀ a, origin_consistent a → ∃ new : list Answer.t,
             answers st ++ [a] = answers st ++ new ∧ Forall origin_consistent new) as one.
  { intros a Ha. exists [a]. split; [done |]. by constructor. }
  assert (∃ new : list Answer.t,
             answers st = answers st ++ new ∧ Forall origin_consistent new) as none.
  { exists []. split; [by rewrite app_nil_r | constructor]. }
  assert (∀ i q b s, origin_consistent (Answer.mk i q b (Some s) 0 false)) as human.
  { intros i q b s. unfold origin_consistent; simpl.
    repeat split; first [done | by eexists]. }
  assert (∀ i q b, origin_consistent (Answer.mk i q b None 0 true)) as ai.
  { intros i q b. unfold origin_consistent; simpl.
    repeat split; first [done | by intros ?%is_Some_None]. }
  destruct r as [d u|p s t b u|q u|q d u|a d u|q u]; simpl.
  - unfold create_question. run.
    destruct (d !! "title"); [|done]. by destruct (d !! "description").
  - done.
  - by rewrite get_question_by_id_eq.
  - unfold answer_question. run.
    destruct (find_by_id Question.id q (questions st)); [|done].
    destruct (d !! "answer"); [|done]. simpl. apply one, human.
  - unfold comment_on_answer. run.
    destruct (find_by_id Answer.id a (answers st)); [|done].
    by destruct (d !! "comment").
  - rewrite generate_ai_answer_route_eq.
    by destruct (find_by_id Question.id q (questions st)).
Qed.

(** C6: after any sequence of requests, in particular of [answer_question]
    and [generate_ai_answer_route] calls, every stored answer has an author
    exactly when it is human ([is_ai = false]) and none exactly when it is
    AI-generated, provided the answers stored before had. *)
Theorem answer_origin_invariant (st : Store) (rs : list request) :
  Forall origin_consistent (answers st) →
  Forall origin_consistent (answers (serve_all st rs)).
Proof.
  revert st. induction rs as [|r rs IH]; intros st Hst; [done |].
  simpl. apply IH.
  destruct (serve_answers st r) as (new & -> & Hnew).
  by apply Forall_app.
Qed.

End Origin.

Lemma answer_origin_invariant_witness :
  Forall origin_consistent
    (answers
       (serve_all (generator := canned_generator) two_tenant_store
          [AnswerQuestion 0%nat {[ "answer" := PyStr "a" ]} alice;
           GenerateAiAnswer 0%nat alice;
           AnswerQuestion 7%nat {[ "answer" := PyStr "b" ]} bob;
           GenerateAiAnswer 1%nat bob])).
Proof.
  apply (answer_origin_invariant (generator := canned_generator) two_tenant_store).
  simpl. constructor.
Defined.

(** The answers that sequence leaves: the one human answer. *)
Example answer_origin_run :
  answers
    (serve_all (generator := canned_generator) two_tenant_store
       [AnswerQuestion 0%nat {[ "answer" := PyStr "a" ]} alice;
        GenerateAiAnswer 0%nat alice;
        AnswerQuestion 7%nat {[ "answer" := PyStr "b" ]} bob;
        GenerateAiAnswer 1%nat bob]) =
  [Answer.mk (Some 3%nat) 0%nat (PyStr "a") (Some "alice") 0 false].
Proof. reflexivity. Qed.

(** * Further properties of the handlers *)

(** ** Lookups by identity *)

Section Lookup.
Context {A : Type} (ident : A → option oid).

Lemma find_by_id_Some i l x :
  find_by_id ident i l = Some x → x ∈ l ∧ ident x = Some i.
Proof.
  unfold find_by_id. intros ([n y] & Hf & ->)%fmap_Some.
  apply list_find_Some in Hf as (Hl & Hid & _).
  split; [by eapply list_elem_of_lookup_2 | done].
Qed.

Lemma find_by_id_None i l :
  find_by_id ident i l = None ↔ ∀ x, x ∈ l → ident x ≠ Some i.
Proof.
  unfold find_by_id. rewrite fmap_None, list_find_None, Forall_forall. done.
Qed.

Lemma find_by_id_app_found i l l' :
  is_Some (find_by_id ident i l) →
  find_by_id ident i (l ++ l') = find_by_id ident i l.
Proof.
  unfold find_by_id. intros [x ([n y] & Hf & ->)%fmap_Some].
  by rewrite (list_find_app_l _ _ _ _ _ Hf), Hf.
Qed.

Lemma find_by_id_app_fresh i l x :
  find_by_id ident i l = None → ident x = Some i →
  find_by_id ident i (l ++ [x]) = Some x.
Proof.
  unfold find_by_id. intros Hn%fmap_None Hx.
  rewrite list_find_app_r by done. simpl.
  by rewrite decide_True.
Qed.

Lemma find_by_id_app_other i l x :
  ident x ≠ Some i →
  find_by_id ident i (l ++ [x]) = find_by_id ident i l.
Proof.
  intros Hx. destruct (find_by_id ident i l) as [y|] eqn:Hf.
  - rewrite find_by_id_app_found; [done | by rewrite Hf].
  - apply find_by_id_None. intros z [Hz| ->%list_elem_of_singleton]%elem_of_app; [|done].
    by eapply find_by_id_None in Hf.
Qed.

End Lookup.

(** ** The write handlers, outcome by outcome *)

Lemma create_question_eq d u st :
  create_question d u st =
  match d !! "title" with
  | None => (Raise (KeyError "title"), st)
  | Some t =>
      match d !! "description" with
      | None => (Raise (KeyError "description"), st)
      | Some desc =>
          (Ok ("Question created successfully", next_id st),
           mkStore
             (questions st ++
                [Question.mk (Some (next_id st)) t desc (dict_get d "tags" (PyList []))
                   (company_id u) (sub u) 0])
             (answers st) (comments st) (users st) (S (next_id st)))
      end
  end.
Proof.
  unfold create_question. run.
  destruct (d !! "title"); [|done]. by destruct (d !! "description").
Qed.

Lemma answer_question_eq question_id d u st :
  answer_question question_id d u st =
  match find_by_id Question.id question_id (questions st) with
  | None => (Raise (HTTPException 404 "Question not found"), st)
  | Some _ =>
      match d !! "answer" with
      | None => (Raise (KeyError "answer"), st)
      | Some body =>
          (Ok "Answer added successfully",
           mkStore (questions st)
             (answers st ++
                [Answer.mk (Some (next_id st)) question_id body (Some (sub u)) 0 false])
             (comments st) (users st) (S (next_id st)))
      end
  end.
Proof.
  unfold answer_question. run.
  destruct (find_by_id Question.id question_id (questions st)); [|done].
  by destruct (d !! "answer").
Qed.

Lemma comment_on_answer_eq answer_id d u st :
  comment_on_answer answer_id d u st =
  match find_by_id Answer.id answer_id (answers st) with
  | None => (Raise (HTTPException 404 "Answer not found"), st)
  | Some _ =>
      match d !! "comment" with
      | None => (Raise (KeyError "comment"), st)
      | Some body =>
          (Ok "Comment added successfully",
           mkStore (questions st) (answers st)
             (comments st ++ [Comment.mk (Some (next_id st)) answer_id body (sub u)])
             (users st) (S (next_id st)))
      end
  end.
Proof.
  unfold comment_on_answer. run.
  destruct (find_by_id Answer.id answer_id (answers st)); [|done].
  by destruct (d !! "comment").
Qed.

(** X1: [comment_on_answer] fails with 404 "Answer not found" when the
    answer id does not resolve, whatever the payload holds, and with
    [KeyError] for "comment" when the answer exists but the payload lacks
    that key; in both cases the store is left as it was. *)
Theorem comment_on_answer_errors (answer_id : oid) (d : gmap string pyval)
    (u : CurrentUser) (st : Store) :
  (Answer_get answer_id st = (Ok None, st) →
   comment_on_answer answer_id d u st =
   (Raise (HTTPException 404 "Answer not found"), st))
  ∧ (∀ a, Answer_get answer_id st = (Ok (Some a), st) →
          d !! "comment" = None →
          comment_on_answer answer_id d u st = (Raise (KeyError "comment"), st)).
Proof.
  rewrite comment_on_answer_eq. run. split.
  - by intros [= ->].
  - by intros a [= ->] ->.
Qed.

Lemma comment_on_answer_errors_witness :
  comment_on_answer 9%nat ∅ bob answered_store =
  (Raise (HTTPException 404 "Answer not found"), answered_store)
  ∧ comment_on_answer 3%nat ∅ bob answered_store =
    (Raise (KeyError "comment"), answered_store).
Proof.
  split.
  - apply (proj1 (comment_on_answer_errors 9%nat ∅ bob answered_store)). reflexivity.
  - apply (proj2 (comment_on_answer_errors 3%nat ∅ bob answered_store) answer_by_alice);
      reflexivity.
Defined.

(** X2: on an answer that exists, with a payload holding "comment",
    [comment_on_answer] succeeds for every caller, of whatever tenant: it
    appends exactly one comment carrying the answer id, the payload's body
    and the caller's identity, under the next identity, and touches nothing
    else. *)
Theorem comment_on_answer_inserts (answer_id : oid) (d : gmap string pyval)
    (u : CurrentUser) (st : Store) (a : Answer.t) (body : pyval) :
  Answer_get answer_id st = (Ok (Some a), st) →
  d !! "comment" = Some body →
  comment_on_answer answer_id d u st =
  (Ok "Comment added successfully",
   mkStore (questions st) (answers st)
     (comments st ++ [Comment.mk (Some (next_id st)) answer_id body (sub u)])
     (users st) (S (next_id st))).
Proof.
  rewrite comment_on_answer_eq. run. by intros [= ->] ->.
Qed.

Lemma comment_on_answer_inserts_witness :
  comment_on_answer 3%nat {[ "comment" := PyStr "c" ]} bob answered_store =
  (Ok "Comment added successfully",
   mkStore (questions answered_store) (answers answered_store)
     (comments answered_store ++ [Comment.mk (Some 4%nat) 3%nat (PyStr "c") "bob"])
     (users answered_store) 5%nat).
Proof.
  rewrite (comment_on_answer_inserts 3%nat _ bob answered_store answer_by_alice (PyStr "c"))
    by reflexivity.
  reflexivity.
Defined.

(** X3: [answer_question] fails with 404 "Question not found" when the
    question id does not resolve, whatever the payload holds, and with
    [KeyError] for "answer" when the question exists but the payload lacks
    that key; in both cases nothing is inserted. *)
Theorem answer_question_errors (question_id : oid) (d : gmap string pyval)
    (u : CurrentUser) (st : Store) :
  (Question_get question_id st = (Ok None, st) →
   answer_question question_id d u st =
   (Raise (HTTPException 404 "Question not found"), st))
  ∧ (∀ q, Question_get question_id st = (Ok (Some q), st) →
          d !! "answer" = None →
          answer_question question_id d u st = (Raise (KeyError "answer"), st)).
Proof.
  rewrite answer_question_eq. run. split.
  - by intros [= ->].
  - by intros a [= ->] ->.
Qed.

Lemma answer_question_errors_witness :
  answer_question 7%nat {[ "answer" := PyStr "a" ]} alice two_tenant_store =
  (Raise (HTTPException 404 "Question not found"), two_tenant_store)
  ∧ answer_question 0%nat ∅ alice two_tenant_store =
    (Raise (KeyError "answer"), two_tenant_store).
Proof.
  split.
  - apply (proj1 (answer_question_errors 7%nat _ alice two_tenant_store)). reflexivity.
  - apply (proj2 (answer_question_errors 0%nat ∅ alice two_tenant_store) question_of_alice);
      reflexivity.
Defined.

(** X4: on a question that exists, with a payload holding "answer",
    [answer_question] appends exactly one answer: it carries the question
    id and the payload's body, the caller as author, no upvotes, and is
    marked human; nothing else changes. *)
Theorem answer_question_inserts (question_id : oid) (d : gmap string pyval)
    (u : CurrentUser) (st : Store) (q : Question.t) (body : pyval) :
  Question_get question_id st = (Ok (Some q), st) →
  d !! "answer" = Some body →
  answer_question question_id d u st =
  (Ok "Answer added successfully",
   mkStore (questions st)
     (answers st ++ [Answer.mk (Some (next_id st)) question_id body (Some (sub u)) 0 false])
     (comments st) (users st) (S (next_id st))).
Proof.
  rewrite answer_question_eq. run. by intros [= ->] ->.
Qed.

Lemma answer_question_inserts_witness :
  answer_question 0%nat {[ "answer" := PyStr "a" ]} alice two_tenant_store =
  (Ok "Answer added successfully", answered_store).
Proof.
  rewrite (answer_question_inserts 0%nat _ alice two_tenant_store question_of_alice (PyStr "a"))
    by reflexivity.
  reflexivity.
Defined.

(** ** What a request can do to the store *)

Section Growth.
Context {store : ContentStore} {generator : AiGenerator}.

Lemma serve_grows (st : Store) (r : request) : grows st (serve st r).
Proof.
  destruct r as [d u|p s t b u|q u|q d u|a d u|q u]; simpl.
  - rewrite create_question_eq.
    destruct (d !! "title"); [|constructor].
    destruct (d !! "description"); [|constructor].
    by apply grows_question.
  - constructor.
  - rewrite get_question_by_id_eq. constructor.
  - rewrite answer_question_eq.
    destruct (find_by_id Question.id q (questions st)) eqn:Hq; [|constructor].
    destruct (d !! "answer"); [|constructor].
    apply grows_answer; [done |]. simpl. by rewrite Hq.
  - rewrite comment_on_answer_eq.
    destruct (find_by_id Answer.id a (answers st)) eqn:Ha; [|constructor].
    destruct (d !! "comment"); [|constructor].
    apply grows_comment; [done |]. simpl. by rewrite Ha.
  - rewrite generate_ai_answer_route_eq.
    destruct (find_by_id Question.id q (questions st)); constructor.
Qed.

Lemma grows_append (st st' : Store) :
  grows st st' →
  questions st `prefix_of` questions st'
  ∧ answers st `prefix_of` answers st'
  ∧ comments st `prefix_of` comments st'
  ∧ users st' = users st
  ∧ (next_id st ≤ next_id st')%nat
  ∧ (document_count st' ≤ S (document_count st))%nat.
Proof.
  unfold document_count.
  destruct 1; simpl; rewrite ?length_app; simpl;
    repeat split; try done; try apply prefix_app_r; try done; lia.
Qed.

Lemma grows_store_ok (st st' : Store) : store_ok st → grows st st' → store_ok st'.
Proof.
  intros (Hq & Ha & Hc) Hg. destruct Hg as [|q Hid|a Hid Href|c Hid Href].
  - done.
  - split; [| split]; simpl.
    + intros x [Hx| ->%list_elem_of_singleton]%elem_of_app.
      * destruct (Hq x Hx) as (i & ? & ?). exists i. split; [done | lia].
      * exists (next_id st). split; [done | lia].
    + intros x Hx. destruct (Ha x Hx) as ((i & ? & ?) & Hr). split.
      * exists i. split; [done | lia].
      * by rewrite find_by_id_app_found.
    + done.
  - split; [| split]; simpl.
    + intros x Hx. destruct (Hq x Hx) as (i & ? & ?). exists i. split; [done | lia].
    + intros x [Hx| ->%list_elem_of_singleton]%elem_of_app.
      * destruct (Ha x Hx) as ((i & ? & ?) & Hr). split; [|done].
        exists i. split; [done | lia].
      * split; [|done]. exists (next_id st). split; [done | lia].
    + intros x Hx. rewrite find_by_id_app_found; by apply Hc.
  - split; [| split]; simpl.
    + intros x Hx. destruct (Hq x Hx) as (i & ? & ?). exists i. split; [done | lia].
    + intros x Hx. destruct (Ha x Hx) as ((i & ? & ?) & Hr). split; [|done].
      exists i. split; [done | lia].
    + intros x [Hx| ->%list_elem_of_singleton]%elem_of_app; [by apply Hc | done].
Qed.

(** X5: the handlers only ever append. After any sequence of requests the
    questions, answers and comments stored before are still there,
    unchanged and in the same order, at the front of their collections; the
    users are untouched; and the store holds at most one more document per
    request served. *)
Theorem requests_only_append (st : Store) (rs : list request) :
  questions st `prefix_of` questions (serve_all st rs)
  ∧ answers st `prefix_of` answers (serve_all st rs)
  ∧ comments st `prefix_of` comments (serve_all st rs)
  ∧ users (serve_all st rs) = users st
  ∧ (document_count (serve_all st rs) ≤ document_count st + length rs)%nat.
Proof.
  revert st. induction rs as [|r rs IH]; intros st; simpl.
  - repeat split; try done. lia.
  - destruct (grows_append st (serve st r) (serve_grows st r))
      as (Hq & Ha & Hc & Hu & _ & Hn).
    destruct (IH (serve st r)) as (Hq' & Ha' & Hc' & Hu' & Hn').
    repeat split.
    + by etrans.
    + by etrans.
    + by etrans.
    + congruence.
    + lia.
Qed.

(** X6: a consistent store stays consistent under any sequence of
    requests: every stored answer refers to a stored question, every stored
    comment to a stored answer, and every identity in use lies below the
    next one to be handed out. *)
Theorem references_resolve (st : Store) (rs : list request) :
  store_ok st → store_ok (serve_all st rs).
Proof.
  revert st. induction rs as [|r rs IH]; intros st Hok; [done |].
  simpl. apply IH. eapply grows_store_ok; [done | apply serve_grows].
Qed.

End Growth.

Lemma references_resolve_witness :
  store_ok
    (serve_all (generator := canned_generator) empty_store
       [CreateQuestion {[ "title" := PyStr "t"; "description" := PyStr "d" ]} alice;
        AnswerQuestion 0%nat {[ "answer" := PyStr "a" ]} bob;
        CommentOnAnswer 1%nat {[ "comment" := PyStr "c" ]} alice;
        CommentOnAnswer 5%nat {[ "comment" := PyStr "lost" ]} alice]).
Proof.
  apply (references_resolve (generator := canned_generator) empty_store).
  unfold store_ok. simpl.
  split; [| split]; intros x Hx; by apply elem_of_nil in Hx.
Defined.

(** ** Failures and reads leave the store alone *)

(** X7: a write handler that raises has inserted nothing: whenever
    [create_question], [answer_question] or [comment_on_answer] fails, for
    whatever reason, the store is exactly what it was before the call. *)
Theorem failed_write_changes_nothing (d : gmap string pyval) (u : CurrentUser)
    (st : Store) (target : oid) :
  (∀ e st', create_question d u st = (Raise e, st') → st' = st)
  ∧ (∀ e st', answer_question target d u st = (Raise e, st') → st' = st)
  ∧ (∀ e st', comment_on_answer target d u st = (Raise e, st') → st' = st).
Proof.
  rewrite create_question_eq, answer_question_eq, comment_on_answer_eq.
  split; [| split]; intros e st'.
  - destruct (d !! "title"); [| by intros [= _ <-]].
    destruct (d !! "description"); [discriminate | by intros [= _ <-]].
  - destruct (find_by_id Question.id target (questions st)); [| by intros [= _ <-]].
    destruct (d !! "answer"); [discriminate | by intros [= _ <-]].
  - destruct (find_by_id Answer.id target (answers st)); [| by intros [= _ <-]].
    destruct (d !! "comment"); [discriminate | by intros [= _ <-]].
Qed.

Section Reads.
Context {store : ContentStore}.

(** X8: the two read handlers never write: whatever they are asked and
    whether they succeed or fail, [get_questions] and [get_question_by_id]
    hand back the store they were given. *)
Theorem reads_change_nothing (st : Store) (page page_size : Z)
    (tags : option (list string)) (sort_by : string) (question_id : oid)
    (u : CurrentUser) :
  snd (get_questions page page_size tags sort_by u st) = st
  ∧ snd (get_question_by_id question_id u st) = st.
Proof.
  by rewrite get_question_by_id_eq.
Qed.

End Reads.

(** ** Generating an answer *)

Section Generate.
Context {generator : AiGenerator}.

(** X9: [generate_ai_answer_route] never succeeds and never inserts. It
    fails with 404 "Question not found" when the question id does not
    resolve, and otherwise with [AttributeError] for "company", whoever the
    caller is and whatever the generator would return; in every case the
    store is left as it was. *)
Theorem generate_ai_answer_route_never_inserts (question_id : oid)
    (u : CurrentUser) (st : Store) :
  (Question_get question_id st = (Ok None, st) →
   generate_ai_answer_route question_id u st =
   (Raise (HTTPException 404 "Question not found"), st))
  ∧ (∀ q, Question_get question_id st = (Ok (Some q), st) →
          generate_ai_answer_route question_id u st =
          (Raise (AttributeError "company"), st))
  ∧ (generate_ai_answer_route question_id u st).2 = st
  ∧ ∀ r, (generate_ai_answer_route question_id u st).1 ≠ Ok r.
Proof.
  rewrite generate_ai_answer_route_eq. run.
  destruct (find_by_id Question.id question_id (questions st)); repeat split;
    try done; by intros ? [= ?].
Qed.

End Generate.

Lemma generate_ai_answer_route_never_inserts_witness :
  generate_ai_answer_route (generator := failing_generator) 7%nat alice two_tenant_store =
  (Raise (HTTPException 404 "Question not found"), two_tenant_store)
  ∧ generate_ai_answer_route (generator := canned_generator) 0%nat alice two_tenant_store =
    (Raise (AttributeError "company"), two_tenant_store).
Proof.
  split.
  - apply (proj1 (generate_ai_answer_route_never_inserts (generator := failing_generator)
                    7%nat alice two_tenant_store)). reflexivity.
  - apply (proj1 (proj2 (generate_ai_answer_route_never_inserts
                           (generator := canned_generator) 0%nat alice two_tenant_store))
             question_of_alice). reflexivity.
Defined.

(** ** What a payload can and cannot set *)

(** X10: [create_question] reads the keys "title", "description" and
    "tags" of the payload and nothing else: two payloads that agree on these
    three keys give the same outcome. The question it inserts always
    carries the caller's tenant and identity, zero upvotes and the identity
    the call returns, so no payload key can set any of these. *)
Theorem create_question_stamps_caller (d : gmap string pyval) (u : CurrentUser)
    (st : Store) :
  (∀ d' : gmap string pyval,
     d' !! "title" = d !! "title" →
     d' !! "description" = d !! "description" →
     d' !! "tags" = d !! "tags" →
     create_question d' u st = create_question d u st)
  ∧ (∀ msg i st',
       create_question d u st = (Ok (msg, i), st') →
       ∃ q, questions st' = questions st ++ [q]
            ∧ Question.id q = Some i
            ∧ Question.company_id q = company_id u
            ∧ Question.user_id q = sub u
            ∧ Question.upvotes q = 0
            ∧ d !! "title" = Some (Question.title q)
            ∧ d !! "description" = Some (Question.description q)).
Proof.
  split.
  - intros d' Ht Hd Htags. rewrite !create_question_eq.
    unfold dict_get. by rewrite Ht, Hd, Htags.
  - intros msg i st'. rewrite create_question_eq.
    destruct (d !! "title") as [t|]; [|discriminate].
    destruct (d !! "description") as [desc|]; [|discriminate].
    intros [= _ <- <-]. eexists. simpl. repeat split.
Qed.

Lemma failed_write_changes_nothing_witness :
  (∀ e st', create_question ∅ alice two_tenant_store = (Raise e, st') →
            st' = two_tenant_store)
  ∧ (∀ e st', answer_question 7%nat ∅ alice two_tenant_store = (Raise e, st') →
              st' = two_tenant_store)
  ∧ (∀ e st', comment_on_answer 7%nat ∅ alice two_tenant_store = (Raise e, st') →
              st' = two_tenant_store).
Proof. apply (failed_write_changes_nothing ∅ alice two_tenant_store 7%nat). Defined.

(** ** Reading back what was written *)

Lemma filter_none {A} (P : A → Prop) `{∀ x, Decision (P x)} (l : list A) :
  (∀ x, x ∈ l → ¬ P x) → filter P l = [].
Proof.
  induction l as [|x l IH]; intros Hl; [done |].
  rewrite filter_cons_False by (apply Hl; left).
  apply IH. intros y Hy. apply Hl. by right.
Qed.

Lemma get_question_by_id_view question_id u st :
  get_question_by_id question_id u st =
  (match find_by_id Question.id question_id (questions st) with
   | None => Raise (HTTPException 404 "Question not found")
   | Some q =>
       if bool_decide (Question.company_id q ≠ company_id u) then
         Raise (HTTPException 403 "Access denied")
       else Ok (q, answers_view st question_id)
   end, st).
Proof. apply get_question_by_id_eq. Qed.

(** In a consistent store the next identity is in use nowhere. *)
Lemma store_ok_fresh (st : Store) :
  store_ok st →
  find_by_id Question.id (next_id st) (questions st) = None
  ∧ find_by_id Answer.id (next_id st) (answers st) = None
  ∧ filter (λ a, Answer.question_id a = next_id st) (answers st) = []
  ∧ filter (λ c, Comment.answer_id c = next_id st) (comments st) = [].
Proof.
  intros (Hq & Ha & Hc).
  assert (find_by_id Question.id (next_id st) (questions st) = None) as HQ.
  { apply find_by_id_None. intros x Hx. destruct (Hq x Hx) as (i & -> & Hi).
    intros [= ->]. lia. }
  assert (find_by_id Answer.id (next_id st) (answers st) = None) as HA.
  { apply find_by_id_None. intros x Hx. destruct (Ha x Hx) as ((i & -> & Hi) & _).
    intros [= ->]. lia. }
  repeat split; try done.
  - apply filter_none. intros a Hin Heq. destruct (Ha a Hin) as (_ & Hr).
    rewrite Heq, HQ in Hr. by apply is_Some_None in Hr.
  - apply filter_none. intros c Hin Heq. pose proof (Hc c Hin) as Hr.
    rewrite Heq, HA in Hr. by apply is_Some_None in Hr.
Qed.

Lemma two_tenant_store_ok : store_ok two_tenant_store.
Proof.
  unfold store_ok. simpl. split; [| split].
  - intros q Hq. repeat (apply elem_of_cons in Hq as [-> | Hq]);
      [eexists; split; [reflexivity | simpl; lia] .. | by apply elem_of_nil in Hq].
  - intros a Ha. by apply elem_of_nil in Ha.
  - intros c Hc. by apply elem_of_nil in Hc.
Defined.

(** X11: a question just created can be read back. In a consistent store,
    after [create_question] succeeds with identity [i], [get_question_by_id]
    for [i] gives every caller of the creator's tenant the stored question
    with an empty list of answers, and every caller of another tenant 403
    "Access denied". *)
Theorem created_question_is_readable (d : gmap string pyval) (u : CurrentUser)
    (st st' : Store) (msg : string) (i : oid) :
  store_ok st →
  create_question d u st = (Ok (msg, i), st') →
  ∃ q, questions st' = questions st ++ [q]
       ∧ (∀ u', company_id u' = company_id u →
                get_question_by_id i u' st' = (Ok (q, []), st'))
       ∧ (∀ u', company_id u' ≠ company_id u →
                get_question_by_id i u' st' =
                (Raise (HTTPException 403 "Access denied"), st')).
Proof.
  intros Hok. destruct (store_ok_fresh st Hok) as (HQ & _ & HA & _).
  rewrite create_question_eq.
  destruct (d !! "title") as [t|]; [|discriminate].
  destruct (d !! "description") as [desc|]; [|discriminate].
  intros [= _ <- <-]. eexists. split; [done |].
  split; intros u' Hu'; rewrite get_question_by_id_view; simpl;
    rewrite (find_by_id_app_fresh _ _ _ _ HQ) by done; simpl.
  - rewrite bool_decide_eq_false_2 by (by intros ?).
    unfold answers_view. simpl. by rewrite HA.
  - rewrite bool_decide_eq_true_2; [done | by intros ?].
Qed.

Lemma created_question_is_readable_witness :
  ∃ q, questions asked_store = questions two_tenant_store ++ [q]
       ∧ (∀ u', company_id u' = company_id alice →
                get_question_by_id 3%nat u' asked_store = (Ok (q, []), asked_store))
       ∧ (∀ u', company_id u' ≠ company_id alice →
                get_question_by_id 3%nat u' asked_store =
                (Raise (HTTPException 403 "Access denied"), asked_store)).
Proof.
  apply (created_question_is_readable
           {[ "title" := PyStr "t"; "description" := PyStr "d" ]} alice
           two_tenant_store asked_store "Question created successfully" 3%nat).
  - apply two_tenant_store_ok.
  - reflexivity.
Defined.

(** X12: an answer just posted shows in the question's view. In a
    consistent store, after [answer_question] succeeds on a question, a
    caller who could read that question before reads it afterwards with the
    new answer added at the end of the answers, with no comments; and the
    outcome of reading any other question is what it was. *)
Theorem answer_shows_in_detail (question_id : oid) (d : gmap string pyval)
    (u : CurrentUser) (st st' : Store) (msg : string) :
  store_ok st →
  answer_question question_id d u st = (Ok msg, st') →
  ∃ a, answers st' = answers st ++ [a]
       ∧ Answer.user_id a = Some (sub u)
       ∧ (∀ u' q view,
            get_question_by_id question_id u' st = (Ok (q, view), st) →
            get_question_by_id question_id u' st' = (Ok (q, view ++ [(a, [])]), st'))
       ∧ (∀ u' other,
            other ≠ question_id →
            (get_question_by_id other u' st').1 = (get_question_by_id other u' st).1).
Proof.
  intros Hok. destruct (store_ok_fresh st Hok) as (_ & _ & _ & HC).
  rewrite answer_question_eq.
  destruct (find_by_id Question.id question_id (questions st)) as [q0|]; [|discriminate].
  destruct (d !! "answer") as [body|]; [|discriminate].
  intros [= _ <-]. eexists. split; [done |]. split; [done |]. split.
  - intros u' q view. rewrite !get_question_by_id_view. simpl.
    destruct (find_by_id Question.id question_id (questions st)) as [q1|]; [|discriminate].
    destruct (bool_decide (Question.company_id q1 ≠ company_id u')); [discriminate |].
    intros [= <- <-]. do 3 f_equal.
    unfold answers_view, comments_on. simpl.
    rewrite filter_app, fmap_app. f_equal.
    rewrite filter_cons_True by done. simpl. do 2 f_equal.
    rewrite <- HC. apply list_filter_iff. intros c. split; [by intros [= ->] | by intros ->].
  - intros u' other Hne. rewrite !get_question_by_id_view. simpl.
    destruct (find_by_id Question.id other (questions st)) as [q1|]; [|done].
    destruct (bool_decide (Question.company_id q1 ≠ company_id u')); [done |].
    do 2 f_equal. unfold answers_view, comments_on. simpl.
    rewrite filter_app, filter_cons_False by (simpl; congruence).
    by rewrite app_nil_r.
Qed.

Lemma answer_shows_in_detail_witness :
  ∃ a, answers answered_store = answers two_tenant_store ++ [a]
       ∧ Answer.user_id a = Some (sub alice)
       ∧ (∀ u' q view,
            get_question_by_id 0%nat u' two_tenant_store = (Ok (q, view), two_tenant_store) →
            get_question_by_id 0%nat u' answered_store =
            (Ok (q, view ++ [(a, [])]), answered_store))
       ∧ (∀ u' other,
            other ≠ 0%nat →
            (get_question_by_id other u' answered_store).1 =
            (get_question_by_id other u' two_tenant_store).1).
Proof.
  apply (answer_shows_in_detail 0%nat {[ "answer" := PyStr "a" ]} alice
           two_tenant_store answered_store "Answer added successfully").
  - apply two_tenant_store_ok.
  - reflexivity.
Defined.

(** X13: a comment just posted shows in the view of the answer's
    question. After [comment_on_answer] succeeds on an answer id, a caller
    who could read a question before reads it afterwards with the same
    answers in the same order, the new comment added at the end of the
    comments of the answers with that id, and the comments of the other
    answers as they were. *)
Theorem comment_shows_in_detail (answer_id : oid) (d : gmap string pyval)
    (u : CurrentUser) (st st' : Store) (msg : string) :
  comment_on_answer answer_id d u st = (Ok msg, st') →
  ∃ c, comments st' = comments st ++ [c]
       ∧ Comment.answer_id c = answer_id
       ∧ Comment.user_id c = sub u
       ∧ ∀ question_id u' q view,
           get_question_by_id question_id u' st = (Ok (q, view), st) →
           get_question_by_id question_id u' st' =
           (Ok (q, (λ ac, (ac.1, ac.2 ++ if decide (Answer.id ac.1 = Some answer_id)
                                         then [c] else []))
                     <$> view), st').
Proof.
  rewrite comment_on_answer_eq.
  destruct (find_by_id Answer.id answer_id (answers st)) as [a0|]; [|discriminate].
  destruct (d !! "comment") as [body|]; [|discriminate].
  intros [= _ <-]. eexists. split; [done |]. split; [done |]. split; [done |].
  intros question_id u' q view. rewrite !get_question_by_id_view. simpl.
  destruct (find_by_id Question.id question_id (questions st)) as [q1|]; [|discriminate].
  destruct (bool_decide (Question.company_id q1 ≠ company_id u')); [discriminate |].
  intros [= <- <-]. do 3 f_equal.
  unfold answers_view. simpl. rewrite <- list_fmap_compose.
  apply list_fmap_ext. intros i a _. simpl. f_equal.
  unfold comments_on. simpl. rewrite filter_app. f_equal.
  rewrite filter_cons. simpl.
  destruct (decide (Some answer_id = Answer.id a)) as [Heq|Hne].
  - by rewrite decide_True.
  - by rewrite decide_False.
Qed.

Lemma comment_shows_in_detail_witness :
  ∃ c, comments (comment_on_answer 3%nat {[ "comment" := PyStr "c" ]} bob answered_store).2 =
       comments answered_store ++ [c]
       ∧ Comment.answer_id c = 3%nat
       ∧ Comment.user_id c = sub bob
       ∧ ∀ question_id u' q view,
           get_question_by_id question_id u' answered_store =
           (Ok (q, view), answered_store) →
           get_question_by_id question_id u'
             (comment_on_answer 3%nat {[ "comment" := PyStr "c" ]} bob answered_store).2 =
           (Ok (q, (λ ac, (ac.1, ac.2 ++ if decide (Answer.id ac.1 = Some 3%nat)
                                         then [c] else []))
                     <$> view),
            (comment_on_answer 3%nat {[ "comment" := PyStr "c" ]} bob answered_store).2).
Proof.
  apply (comment_shows_in_detail 3%nat {[ "comment" := PyStr "c" ]} bob answered_store
           _ "Comment added successfully").
  reflexivity.
Defined.

(** Alice reads her question after her answer and bob's comment on it. *)
Example detail_after_answer_and_comment :
  (get_question_by_id 0%nat alice
     (comment_on_answer 3%nat {[ "comment" := PyStr "c" ]} bob answered_store).2).1 =
  Ok (question_of_alice,
      [(answer_by_alice, [Comment.mk (Some 4%nat) 3%nat (PyStr "c") "bob"])]).
Proof. reflexivity. Qed.

(** X14: what a successful [get_question_by_id] returns: the stored
    question with the requested id, which belongs to the caller's tenant;
    as answers exactly the stored answers whose question id is the requested
    one, in insertion order; and with each answer exactly the stored
    comments on it, in insertion order. *)
Theorem detail_contents (question_id : oid) (u : CurrentUser) (st st' : Store)
    (q : Question.t) (view : list (Answer.t * list Comment.t)) :
  get_question_by_id question_id u st = (Ok (q, view), st') →
  q ∈ questions st
  ∧ Question.id q = Some question_id
  ∧ Question.company_id q = company_id u
  ∧ view.*1 = filter (λ a, Answer.question_id a = question_id) (answers st)
  ∧ Forall (λ ac, ac.2 = filter (λ c, Some (Comment.answer_id c) = Answer.id ac.1)
                          (comments st)) view.
Proof.
  rewrite get_question_by_id_view.
  destruct (find_by_id Question.id question_id (questions st)) as [q1|] eqn:Hq;
    [|discriminate].
  destruct (bool_decide_reflect (Question.company_id q1 ≠ company_id u)) as [|Hc];
    [discriminate |].
  intros [= <- <- _]. apply find_by_id_Some in Hq as [Hin Hid].
  split; [done |]. split; [done |]. split.
  { destruct (decide (Question.company_id q1 = company_id u)); [done | by destruct Hc]. }
  unfold answers_view. split.
  - rewrite <- list_fmap_compose. apply list_fmap_id.
  - apply Forall_fmap, Forall_forall. by intros a _.
Qed.

Lemma detail_contents_witness :
  question_of_alice ∈ questions answered_store
  ∧ Question.id question_of_alice = Some 0%nat
  ∧ Question.company_id question_of_alice = company_id alice
  ∧ [(answer_by_alice, @nil Comment.t)].*1 =
    filter (λ a, Answer.question_id a = 0%nat) (answers answered_store)
  ∧ Forall (λ ac, ac.2 = filter (λ c, Some (Comment.answer_id c) = Answer.id ac.1)
                          (comments answered_store)) [(answer_by_alice, @nil Comment.t)].
Proof.
  apply (detail_contents 0%nat alice answered_store answered_store
           question_of_alice [(answer_by_alice, [])]).
  reflexivity.
Defined.

(** ** What a listing holds *)


Section Listing.
Context {store : ContentStore}.



(** X16: [get_questions] returns no listing: for every page, page size,
    tags, sort key, caller and store it raises [TypeError], an internal
    error (status 500), because [sort] refuses the integer it is given; the
    store is left as it was. *)
Theorem get_questions_always_raises (st : Store) (page page_size : Z)
    (tags : option (list string)) (sort_by : string) (u : CurrentUser) :
  get_questions page page_size tags sort_by u st =
  (Raise (TypeError "Wrong argument type"), st)
  ∧ status_of (TypeError "Wrong argument type") = 500.
Proof. by rewrite get_questions_eq. Qed.

End Listing.

Lemma create_question_stamps_caller_witness :
  create_question
    {[ "title" := PyStr "t"; "description" := PyStr "d"; "company_id" := PyStr "2" ]}
    alice two_tenant_store =
  create_question {[ "title" := PyStr "t"; "description" := PyStr "d" ]}
    alice two_tenant_store.
Proof.
  apply (proj1 (create_question_stamps_caller
                  {[ "title" := PyStr "t"; "description" := PyStr "d" ]}
                  alice two_tenant_store)); reflexivity.
Defined.

